(** * NaN-aware comparisons, equality and hashing of floating-point values

    A shallow embedding of [include/pagmo/detail/custom_comparisons.hpp]
    ([namespace pagmo::detail]): [less_than_f], [greater_than_f],
    [equal_to_f], [equal_to_vf] and [hash_vf].

    The header has two bodies for each scalar operation, selected by
    [#if defined(__cpp_impl_three_way_comparison)]: one built on the
    three-way comparison [a <=> b], one on a chain of [std::isnan] tests.
    Both are embedded; a boolean [three_way] stands for the preprocessor
    condition. *)

From Stdlib Require Import ZArith Bool List Lia String.
From Stdlib Require Import Floats.SpecFloat.
Import ListNotations.

Local Open Scope Z_scope.

(** ** The C++ side the header relies on *)

(** [std::partial_ordering], the result type of [<=>] on floating-point
    operands. *)
Inductive partial_ordering : Type :=
  | less
  | equivalent
  | greater
  | unordered.

Definition partial_ordering_eqb (p q : partial_ordering) : bool :=
  match p, q with
  | less, less | equivalent, equivalent
  | greater, greater | unordered, unordered => true
  | _, _ => false
  end.

(** A scalar floating-point type [T] ([std::is_floating_point_v<T>]): every
    object of the type denotes an IEEE 754 datum.  The object itself may
    carry more than its datum does, such as the sign and payload bits of a
    NaN. *)
Class FloatingPoint (T : Type) : Type := {
  ieee : T -> spec_float
}.

Section Native.
Context {T : Type} `{FloatingPoint T}.

(** [std::isnan]. *)
Definition isnan (x : T) : bool :=
  match ieee x with
  | S754_nan => true
  | _ => false
  end.

(** The built-in [a <=> b]. *)
Definition three_way_cmp (a b : T) : partial_ordering :=
  match SFcompare (ieee a) (ieee b) with
  | Some Lt => less
  | Some Eq => equivalent
  | Some Gt => greater
  | None => unordered
  end.

(** The built-in [a < b], [a > b] and [a == b]. *)
Definition native_lt (a b : T) : bool := SFltb (ieee a) (ieee b).
Definition native_gt (a b : T) : bool :=
  match SFcompare (ieee a) (ieee b) with
  | Some Gt => true
  | _ => false
  end.
Definition native_eq (a b : T) : bool := SFeqb (ieee a) (ieee b).
End Native.

Declare Scope cpp_scope.
Delimit Scope cpp_scope with cpp.
Infix "<=>" := three_way_cmp (at level 70, no associativity) : cpp_scope.
Infix "==" := partial_ordering_eqb (at level 70, no associativity) : cpp_scope.
Local Open Scope cpp_scope.

(** [std::size_t] of a 64-bit target: a [Z] kept below [2^64]. *)
Definition size_t_bits : Z := 64.
Definition size_t_wrap (x : Z) : Z := x mod 2 ^ size_t_bits.

(** [std::equal(first1, last1, first2, pred)]: walks the first range and
    reads the second one through [first2] alone.  Reading past the end of
    the second range has no defined result: [None]. *)
Fixpoint std_equal {A : Type} (pred : A -> A -> bool) (r1 r2 : list A)
  : option bool :=
  match r1 with
  | [] => Some true
  | x :: r1' =>
      match r2 with
      | [] => None
      | y :: r2' => if pred x y then std_equal pred r1' r2' else Some false
      end
  end.

(** ** [namespace pagmo::detail] *)

Section Detail.
Context {T : Type} `{FloatingPoint T}.

(** *** [less_than_f<T, After>] *)

Definition less_than_f_three_way (After : bool) (a b : T) : bool :=
  let cmp := a <=> b in
  if cmp == less then true
  else if (cmp == greater) || (cmp == equivalent) then false
  else
    let a_nan := isnan a in
    let b_nan := isnan b in
    if negb a_nan && b_nan then After
    else if a_nan && negb b_nan then negb After
    else false.

Definition less_than_f_isnan (After : bool) (a b : T) : bool :=
  if negb (isnan a) then
    if negb (isnan b) then native_lt a b else After
  else
    if negb (isnan b) then negb After else false.

Definition less_than_f (three_way After : bool) (a b : T) : bool :=
  if three_way then less_than_f_three_way After a b
  else less_than_f_isnan After a b.

(** *** [greater_than_f<T, After>] *)

Definition greater_than_f_three_way (After : bool) (a b : T) : bool :=
  let cmp := a <=> b in
  if cmp == greater then true
  else if (cmp == less) || (cmp == equivalent) then false
  else
    let a_nan := isnan a in
    let b_nan := isnan b in
    if negb a_nan && b_nan then negb After
    else if a_nan && negb b_nan then After
    else false.

Definition greater_than_f_isnan (After : bool) (a b : T) : bool :=
  if negb (isnan a) then
    if negb (isnan b) then native_gt a b else negb After
  else
    if negb (isnan b) then After else false.

Definition greater_than_f (three_way After : bool) (a b : T) : bool :=
  if three_way then greater_than_f_three_way After a b
  else greater_than_f_isnan After a b.

(** *** [equal_to_f<T>] *)

Definition equal_to_f_three_way (a b : T) : bool :=
  let cmp := a <=> b in
  if cmp == equivalent then true
  else if negb (cmp == unordered) then false
  else isnan a && isnan b.

Definition equal_to_f_isnan (a b : T) : bool :=
  if negb (isnan a) && negb (isnan b) then native_eq a b
  else isnan a && isnan b.

Definition equal_to_f (three_way : bool) (a b : T) : bool :=
  if three_way then equal_to_f_three_way a b else equal_to_f_isnan a b.

(** *** [equal_to_vf<T>::operator()] *)

Definition equal_to_vf (three_way : bool) (lhs rhs : list T) : option bool :=
  if negb (Nat.eqb (List.length lhs) (List.length rhs)) then Some false
  else std_equal (equal_to_f three_way) lhs rhs.

(** *** [hash_vf<T>::operator()]

    [boost::hash_combine] belongs to Boost, not to this header: it is a
    parameter, taking the seed and the element to the new seed. *)

Definition hash_vf (hash_combine : Z -> T -> Z) (v : list T) : Z :=
  let retval := 0 in
  fold_left (fun retval el => hash_combine retval el) v retval.
End Detail.

(** ** The floating-point types of a usual target: [float] and [double]

    Objects are their bit patterns in the IEEE 754 binary interchange
    formats ([exp_bits] exponent bits above [frac_bits] fraction bits, the
    sign on top). *)

Section Interchange.
Variables exp_bits frac_bits : Z.

Definition bias : Z := 2 ^ (exp_bits - 1) - 1.

Definition frac_field (x : Z) : Z := Z.land x (Z.ones frac_bits).
Definition exp_field (x : Z) : Z :=
  Z.land (Z.shiftr x frac_bits) (Z.ones exp_bits).
Definition sign_field (x : Z) : bool := Z.testbit x (exp_bits + frac_bits).

Definition decode (x : Z) : spec_float :=
  let s := sign_field x in
  let e := exp_field x in
  let f := frac_field x in
  if e =? Z.ones exp_bits then
    if f =? 0 then S754_infinity s else S754_nan
  else if e =? 0 then
    if f =? 0 then S754_zero s
    else S754_finite s (Z.to_pos f) (1 - bias - frac_bits)
  else S754_finite s (Z.to_pos (f + 2 ^ frac_bits)) (e - bias - frac_bits).
End Interchange.

Record float : Type := Float { float_bits : Z }.
Record double : Type := Double { double_bits : Z }.

#[export] Instance float_FloatingPoint : FloatingPoint float :=
  {| ieee x := decode 8 23 (float_bits x) |}.
#[export] Instance double_FloatingPoint : FloatingPoint double :=
  {| ieee x := decode 11 52 (double_bits x) |}.

(** The abstract data themselves form a floating-point type with a single
    NaN. *)
#[export] Instance spec_float_FloatingPoint : FloatingPoint spec_float :=
  {| ieee x := x |}.

Module DoubleValues.
Definition one : double := Double 0x3FF0000000000000.
Definition two : double := Double 0x4000000000000000.
Definition three : double := Double 0x4008000000000000.
Definition minus_one : double := Double 0xBFF0000000000000.
Definition plus_zero : double := Double 0x0000000000000000.
Definition minus_zero : double := Double 0x8000000000000000.
Definition plus_inf : double := Double 0x7FF0000000000000.
Definition minus_inf : double := Double 0xFFF0000000000000.
Definition min_subnormal : double := Double 0x0000000000000001.
(** Two quiet NaNs that differ in their payload only. *)
Definition qnan : double := Double 0x7FF8000000000000.
Definition qnan_payload : double := Double 0x7FF8000000000001.
(** A quiet NaN with the sign bit set. *)
Definition qnan_negative : double := Double 0xFFF8000000000000.
End DoubleValues.

(** ** A combine step for examples

    [boost::hash_combine] is not modelled.  The combine step below serves
    as a concrete argument of [hash_vf] in examples; it reads nothing of
    its element but the datum the element denotes. *)

(** An element hash computed from the datum an object denotes: zeros of
    either sign hash alike, and so do all NaNs. *)
Definition hash_value_datum {T : Type} `{FloatingPoint T} (v : T) : Z :=
  match ieee v with
  | S754_zero _ => 0
  | S754_infinity s => size_t_wrap (if s then -2 else -1)
  | S754_nan => size_t_wrap (-3)
  | S754_finite s m e =>
      size_t_wrap ((Z.pos m + e * 2 ^ 53) * 2 + (if s then 1 else 0))
  end.

Definition datum_combine {T : Type} `{FloatingPoint T} (seed : Z) (v : T)
  : Z :=
  size_t_wrap (31 * seed + hash_value_datum v).

(** ** Instantiation: what the [static_assert]s let through

    The operations are templates over the scalar type.  For the arithmetic
    types below every expression of their bodies is well-formed ([<=>], [<],
    [>] and [==] are built in, [std::isnan] and [boost::hash_combine] accept
    every arithmetic type), so an instantiation is rejected exactly when a
    [static_assert] on its path fails. *)

Inductive scalar_type : Type :=
  | ty_bool
  | ty_char
  | ty_int
  | ty_unsigned
  | ty_long
  | ty_unsigned_long
  | ty_float
  | ty_double
  | ty_long_double.

(** [std::is_floating_point_v<T>]. *)
Definition is_floating_point (t : scalar_type) : bool :=
  match t with
  | ty_float | ty_double | ty_long_double => true
  | _ => false
  end.

Inductive instantiation : Type :=
  | well_formed
  | ill_formed (diagnostic : string).

Definition static_assert (cond : bool) (diagnostic : string)
  (rest : instantiation) : instantiation :=
  if cond then rest else ill_formed diagnostic.

Inductive operation : Type :=
  | op_less_than_f
  | op_greater_than_f
  | op_equal_to_f
  | op_equal_to_vf
  | op_hash_vf.

Definition operation_name (op : operation) : string :=
  match op with
  | op_less_than_f => "less_than_f"
  | op_greater_than_f => "greater_than_f"
  | op_equal_to_f => "equal_to_f"
  | op_equal_to_vf => "equal_to_vf"
  | op_hash_vf => "hash_vf"
  end.

Definition instantiate_less_than_f (three_way : bool) (t : scalar_type)
  : instantiation :=
  static_assert (is_floating_point t)
    "less_than_f can be used only with floating-point types." well_formed.

Definition instantiate_greater_than_f (three_way : bool) (t : scalar_type)
  : instantiation :=
  static_assert (is_floating_point t)
    "greater_than_f can be used only with floating-point types." well_formed.

(** The assertion of [equal_to_f] stands inside the [#else] branch. *)
Definition instantiate_equal_to_f (three_way : bool) (t : scalar_type)
  : instantiation :=
  if three_way then well_formed
  else
    static_assert (is_floating_point t)
      "equal_to_f can be used only with floating-point types." well_formed.

(** [equal_to_vf<T>::operator()] asserts, then names [equal_to_f<T>]. *)
Definition instantiate_equal_to_vf (three_way : bool) (t : scalar_type)
  : instantiation :=
  static_assert (is_floating_point t)
    "This class (equal_to_vf) can be used only with floating-point types."
    (instantiate_equal_to_f three_way t).

Definition instantiate_hash_vf (three_way : bool) (t : scalar_type)
  : instantiation :=
  static_assert (is_floating_point t)
    "This class (hash_vf) can be used only with floating-point types."
    well_formed.

Definition instantiate (op : operation) : bool -> scalar_type -> instantiation :=
  match op with
  | op_less_than_f => instantiate_less_than_f
  | op_greater_than_f => instantiate_greater_than_f
  | op_equal_to_f => instantiate_equal_to_f
  | op_equal_to_vf => instantiate_equal_to_vf
  | op_hash_vf => instantiate_hash_vf
  end.

(** [mentions name text]: [name] occurs in [text]. *)
Definition mentions (name text : string) : bool :=
  match index 0 name text with
  | Some _ => true
  | None => false
  end.

(** The build is rejected with a diagnostic that names the operation. *)
Definition rejected_naming (op : operation) (r : instantiation) : bool :=
  match r with
  | well_formed => false
  | ill_formed diagnostic => mentions (operation_name op) diagnostic
  end.

(** ** Orders *)

(** A strict weak ordering, as the comparison-based algorithms of the
    standard library require of a comparator. *)
Record strict_weak_ordering {A : Type} (comp : A -> A -> bool) : Prop := {
  swo_irreflexive : forall x, comp x x = false;
  swo_asymmetric : forall x y, comp x y = true -> comp y x = false;
  swo_transitive :
    forall x y z, comp x y = true -> comp y z = true -> comp x z = true;
  swo_equiv_transitive :
    forall x y z,
      comp x y = false -> comp y x = false ->
      comp y z = false -> comp z y = false ->
      comp x z = false /\ comp z x = false
}.

(** [ordered_by comp l]: no element of [l] is placed before one that
    [comp] puts first, which is what sorting with [comp] establishes. *)
Fixpoint ordered_by {A : Type} (comp : A -> A -> bool) (l : list A) : Prop :=
  match l with
  | [] => True
  | x :: l' => (forall y, In y l' -> comp y x = false) /\ ordered_by comp l'
  end.

(** The place of a datum on the line on which [less_than_f<T, After>]
    puts all values: a lexicographic triple, NaN at the end [After] names. *)
Definition order_key (After : bool) (x : spec_float) : Z * Z * Z :=
  match x with
  | S754_nan => (if After then 3 else -3, 0, 0)
  | S754_infinity s => (if s then -2 else 2, 0, 0)
  | S754_zero _ => (0, 0, 0)
  | S754_finite s m e =>
      if s then (-1, - e, - Z.pos m) else (1, e, Z.pos m)
  end.

Definition lex_compare (p q : Z * Z * Z) : comparison :=
  let '(p1, p2, p3) := p in
  let '(q1, q2, q3) := q in
  match p1 ?= q1 with
  | Eq => match p2 ?= q2 with
          | Eq => p3 ?= q3
          | c => c
          end
  | c => c
  end.

Definition is_lt (c : comparison) : bool :=
  match c with Lt => true | _ => false end.
Definition is_gt (c : comparison) : bool :=
  match c with Gt => true | _ => false end.
Definition is_eq (c : comparison) : bool :=
  match c with Eq => true | _ => false end.

(** The key of an object of a floating-point type. *)
Definition key {T : Type} `{FloatingPoint T} (After : bool) (a : T)
  : Z * Z * Z :=
  order_key After (ieee a).

(** * Properties *)

(** ** The lexicographic comparison of keys *)

Ltac split_compare :=
  repeat match goal with
    | H : context [Z.compare ?a ?b] |- _ => destruct (Z.compare_spec a b)
    | |- context [Z.compare ?a ?b] => destruct (Z.compare_spec a b)
    end.

Lemma lex_compare_lt (p q : Z * Z * Z) :
  lex_compare p q = Lt <->
  fst (fst p) < fst (fst q) \/
  (fst (fst p) = fst (fst q) /\
   (snd (fst p) < snd (fst q) \/
    (snd (fst p) = snd (fst q) /\ snd p < snd q))).
Proof.
  destruct p as [[p1 p2] p3], q as [[q1 q2] q3]; cbn [lex_compare fst snd].
  split.
  - split_compare; intros; try discriminate; lia.
  - intros Hlt. split_compare; try reflexivity; lia.
Qed.

Lemma lex_compare_eq (p q : Z * Z * Z) : lex_compare p q = Eq <-> p = q.
Proof.
  destruct p as [[p1 p2] p3], q as [[q1 q2] q3]; cbn [lex_compare].
  split.
  - split_compare; intros; try discriminate; congruence.
  - intros [= -> -> ->]. now rewrite !Z.compare_refl.
Qed.

Lemma lex_compare_antisym (p q : Z * Z * Z) :
  lex_compare q p = CompOpp (lex_compare p q).
Proof.
  destruct p as [[p1 p2] p3], q as [[q1 q2] q3]; cbn [lex_compare].
  rewrite (Z.compare_antisym p1 q1), (Z.compare_antisym p2 q2),
    (Z.compare_antisym p3 q3).
  destruct (p1 ?= q1), (p2 ?= q2), (p3 ?= q3); reflexivity.
Qed.

Lemma lex_compare_gt (p q : Z * Z * Z) :
  lex_compare p q = Gt <-> lex_compare q p = Lt.
Proof.
  rewrite (lex_compare_antisym p q). destruct (lex_compare p q); cbn; intuition congruence.
Qed.

Lemma lex_compare_lt_trans (p q r : Z * Z * Z) :
  lex_compare p q = Lt -> lex_compare q r = Lt -> lex_compare p r = Lt.
Proof. rewrite !lex_compare_lt. lia. Qed.

(** ** [SFcompare] through keys *)

Lemma SFcompare_order_key (After : bool) (x y : spec_float) :
  x <> S754_nan -> y <> S754_nan ->
  SFcompare x y = Some (lex_compare (order_key After x) (order_key After y)).
Proof.
  intros Hx Hy.
  destruct x as [sx | sx | | sx mx ex]; try congruence;
    destruct y as [sy | sy | | sy my ey]; try congruence;
    try destruct sx; try destruct sy; try reflexivity.
  cbn. change (Pos.compare_cont Eq mx my) with (Pos.compare mx my).
  rewrite Z.compare_opp, (Z.compare_antisym ey ex).
  destruct (ey ?= ex), (mx ?= my)%positive; reflexivity.
Qed.

Lemma SFcompare_nan_l (y : spec_float) : SFcompare S754_nan y = None.
Proof. reflexivity. Qed.

Lemma SFcompare_nan_r (x : spec_float) : SFcompare x S754_nan = None.
Proof. destruct x as [[] | [] | | [] ? ?]; reflexivity. Qed.

(** ** The bit patterns denote canonical data *)

Lemma digits2_pos_log2 (m : positive) :
  Z.pos (digits2_pos m) = Z.log2 (Z.pos m) + 1.
Proof.
  assert (Hsize : digits2_pos m = Pos.size m).
  { induction m as [m IH | m IH |]; cbn; now rewrite ?IH. }
  rewrite Hsize.
  change (Z.pos (Pos.size m)) with (Z.log2 (Z.pos m~0)).
  change (Z.pos m~0) with (2 * Z.pos m).
  rewrite Z.log2_double by lia. lia.
Qed.

Lemma frac_field_range (frac_bits x : Z) :
  0 <= frac_bits -> 0 <= frac_field frac_bits x < 2 ^ frac_bits.
Proof.
  intros Hw. unfold frac_field. rewrite Z.land_ones by exact Hw.
  apply Z.mod_pos_bound. now apply Z.pow_pos_nonneg.
Qed.

Lemma exp_field_range (exp_bits frac_bits x : Z) :
  0 <= exp_bits -> 0 <= exp_field exp_bits frac_bits x < 2 ^ exp_bits.
Proof.
  intros Hw. unfold exp_field. rewrite Z.land_ones by exact Hw.
  apply Z.mod_pos_bound. now apply Z.pow_pos_nonneg.
Qed.

(** Every bit pattern of the format with [exp_bits] exponent bits and
    [frac_bits] fraction bits decodes to a datum of the format of precision
    [frac_bits + 1] and maximal exponent [2 ^ (exp_bits - 1)]: the data on
    which [SFcompare] is the numerical comparison. *)
Lemma decode_valid_binary (exp_bits frac_bits x : Z) :
  1 < exp_bits -> 0 < frac_bits ->
  valid_binary (frac_bits + 1) (2 ^ (exp_bits - 1))
    (decode exp_bits frac_bits x) = true.
Proof.
  intros Hew Hfw. unfold decode.
  pose proof (frac_field_range frac_bits x ltac:(lia)) as Hf.
  pose proof (exp_field_range exp_bits frac_bits x ltac:(lia)) as He.
  set (f := frac_field frac_bits x) in *.
  set (e := exp_field exp_bits frac_bits x) in *.
  assert (Hones : Z.ones exp_bits = 2 ^ exp_bits - 1).
  { rewrite Z.ones_equiv. lia. }
  assert (Hpow : 2 ^ exp_bits = 2 * 2 ^ (exp_bits - 1)).
  { rewrite <- Z.pow_succ_r by lia. f_equal. lia. }
  assert (Hhalf : 2 ^ 1 <= 2 ^ (exp_bits - 1))
    by (apply Z.pow_le_mono_r; lia).
  change (2 ^ 1) with 2 in Hhalf.
  destruct (Z.eqb_spec e (Z.ones exp_bits)) as [Hmax | Hmax];
    [now destruct (f =? 0) |].
  destruct (Z.eqb_spec e 0) as [Hzero | Hzero].
  - destruct (Z.eqb_spec f 0) as [Hf0 | Hf0]; [reflexivity |].
    cbn [valid_binary]. unfold bounded, canonical_mantissa, fexp, emin, bias.
    rewrite digits2_pos_log2, Z2Pos.id by lia.
    assert (Z.log2 f < frac_bits) by (apply Z.log2_lt_pow2; lia).
    apply andb_true_intro. split; [apply Z.eqb_eq | apply Z.leb_le; lia].
    rewrite Z.max_r; lia.
  - cbn [valid_binary]. unfold bounded, canonical_mantissa, fexp, emin, bias.
    rewrite digits2_pos_log2, Z2Pos.id by lia.
    assert (Z.log2 (f + 2 ^ frac_bits) = frac_bits).
    { apply Z.log2_unique; [lia |].
      rewrite Z.pow_succ_r by lia. lia. }
    apply andb_true_intro. split; [apply Z.eqb_eq | apply Z.leb_le; lia].
    rewrite Z.max_l; lia.
Qed.

Lemma double_valid_binary (x : double) :
  valid_binary 53 1024 (ieee x) = true.
Proof. apply (decode_valid_binary 11 52); lia. Qed.

Lemma float_valid_binary (x : float) :
  valid_binary 24 128 (ieee x) = true.
Proof. apply (decode_valid_binary 8 23); lia. Qed.

(** ** The operations through keys *)

Section Keys.
Context {T : Type} `{FloatingPoint T}.

Ltac by_data After :=
  unfold key, isnan, three_way_cmp, native_lt, native_gt, native_eq,
    SFltb, SFeqb;
  match goal with
  | a : T, b : T |- _ => generalize (ieee a) (ieee b)
  end;
  let x := fresh "x" in
  let y := fresh "y" in
  intros x y;
  destruct x as [? | ? | | ? ? ?], y as [? | ? | | ? ? ?];
  try (rewrite (SFcompare_order_key After) by discriminate;
       match goal with
       | |- context [lex_compare ?p ?q] =>
           rewrite ?(lex_compare_antisym p q); destruct (lex_compare p q)
       end;
       reflexivity);
  repeat match goal with s : bool |- _ => destruct s end;
  reflexivity.

Lemma less_than_f_key (three_way After : bool) (a b : T) :
  less_than_f three_way After a b
  = is_lt (lex_compare (key After a) (key After b)).
Proof.
  unfold less_than_f, less_than_f_three_way, less_than_f_isnan.
  destruct three_way; by_data After.
Qed.

Lemma greater_than_f_key (three_way After : bool) (a b : T) :
  greater_than_f three_way After a b
  = is_gt (lex_compare (key After a) (key After b)).
Proof.
  unfold greater_than_f, greater_than_f_three_way, greater_than_f_isnan.
  destruct three_way; by_data After.
Qed.

Lemma equal_to_f_key (three_way After : bool) (a b : T) :
  equal_to_f three_way a b
  = is_eq (lex_compare (key After a) (key After b)).
Proof.
  unfold equal_to_f, equal_to_f_three_way, equal_to_f_isnan.
  destruct three_way; by_data After.
Qed.

(** The two bodies of each operation compute the same function. *)
Lemma less_than_f_bodies_agree (After : bool) (a b : T) :
  less_than_f_three_way After a b = less_than_f_isnan After a b.
Proof.
  change (less_than_f true After a b = less_than_f false After a b).
  now rewrite !less_than_f_key.
Qed.

Lemma greater_than_f_bodies_agree (After : bool) (a b : T) :
  greater_than_f_three_way After a b = greater_than_f_isnan After a b.
Proof.
  change (greater_than_f true After a b = greater_than_f false After a b).
  now rewrite !greater_than_f_key.
Qed.

Lemma equal_to_f_bodies_agree (a b : T) :
  equal_to_f_three_way a b = equal_to_f_isnan a b.
Proof.
  change (equal_to_f true a b = equal_to_f false a b).
  now rewrite !(equal_to_f_key _ true).
Qed.

Lemma greater_than_f_converse (three_way After : bool) (a b : T) :
  greater_than_f three_way After a b = less_than_f three_way After b a.
Proof.
  rewrite greater_than_f_key, less_than_f_key.
  rewrite (lex_compare_antisym (key After a) (key After b)).
  now destruct (lex_compare (key After a) (key After b)).
Qed.
End Keys.

(** ** Scalar operations *)

Section Scalar.
Context {T : Type} `{FloatingPoint T}.

Lemma isnan_key (After : bool) (a : T) :
  isnan a = true <-> fst (fst (key After a)) = (if After then 3 else -3).
Proof.
  unfold isnan, key.
  destruct (ieee a) as [[] | [] | | [] ? ?], After; cbn;
    split; intros; (reflexivity || discriminate).
Qed.

Lemma less_than_f_irreflexive (three_way After : bool) (x : T) :
  less_than_f three_way After x x = false.
Proof.
  rewrite less_than_f_key.
  now rewrite (proj2 (lex_compare_eq _ _) eq_refl).
Qed.

Lemma less_than_f_asymmetric (three_way After : bool) (x y : T) :
  less_than_f three_way After x y = true ->
  less_than_f three_way After y x = false.
Proof.
  rewrite !less_than_f_key.
  rewrite (lex_compare_antisym (key After x) (key After y)).
  now destruct (lex_compare (key After x) (key After y)).
Qed.

Lemma less_than_f_transitive (three_way After : bool) (x y z : T) :
  less_than_f three_way After x y = true ->
  less_than_f three_way After y z = true ->
  less_than_f three_way After x z = true.
Proof.
  rewrite !less_than_f_key. intros Hxy Hyz.
  rewrite (lex_compare_lt_trans (key After x) (key After y) (key After z));
    [reflexivity | |].
  - now destruct (lex_compare (key After x) (key After y)).
  - now destruct (lex_compare (key After y) (key After z)).
Qed.

(** Neither less nor greater: the keys coincide. *)
Lemma less_than_f_incomparable (three_way After : bool) (x y : T) :
  less_than_f three_way After x y = false /\
  less_than_f three_way After y x = false
  <-> key After x = key After y.
Proof.
  rewrite !less_than_f_key.
  rewrite (lex_compare_antisym (key After x) (key After y)).
  rewrite <- lex_compare_eq.
  destruct (lex_compare (key After x) (key After y)); cbn;
    intuition congruence.
Qed.

Lemma less_than_f_strict_weak_ordering (three_way After : bool) :
  strict_weak_ordering (less_than_f (T := T) three_way After).
Proof.
  constructor.
  - apply less_than_f_irreflexive.
  - apply less_than_f_asymmetric.
  - apply less_than_f_transitive.
  - intros x y z Hxy Hyx Hyz Hzy.
    apply (less_than_f_incomparable three_way After).
    transitivity (key After y);
      apply (less_than_f_incomparable three_way After); now split.
Qed.

Lemma strict_weak_ordering_converse (comp : T -> T -> bool) :
  strict_weak_ordering comp ->
  strict_weak_ordering (fun a b => comp b a).
Proof.
  intros [Hirr Hasym Htrans Heq]. constructor; cbn.
  - exact Hirr.
  - intros x y. apply Hasym.
  - intros x y z Hyx Hzy. now apply (Htrans z y x).
  - intros x y z Hyx Hxy Hzy Hyz.
    destruct (Heq x y z Hxy Hyx Hyz Hzy). now split.
Qed.

Lemma strict_weak_ordering_ext (comp comp' : T -> T -> bool) :
  (forall a b, comp' a b = comp a b) ->
  strict_weak_ordering comp -> strict_weak_ordering comp'.
Proof.
  intros Hext [Hirr Hasym Htrans Heq].
  constructor.
  - intros x. rewrite Hext. apply Hirr.
  - intros x y. rewrite !Hext. apply Hasym.
  - intros x y z. rewrite !Hext. apply Htrans.
  - intros x y z. rewrite !Hext. apply Heq.
Qed.
End Scalar.

(** ** Vectors *)

Section Vector.
Context {A : Type}.
Variable pred : A -> A -> bool.

(** Over ranges of one length [std_equal] never reads out of range, and
    it answers whether [pred] holds at every index. *)
Lemma std_equal_same_length (r1 r2 : list A) :
  List.length r1 = List.length r2 ->
  exists b,
    std_equal pred r1 r2 = Some b /\
    (b = true <->
     forall i x y,
       nth_error r1 i = Some x -> nth_error r2 i = Some y ->
       pred x y = true).
Proof.
  revert r2. induction r1 as [| x r1 IH]; intros [| y r2] Hlen;
    try discriminate.
  - exists true. split; [reflexivity |].
    split; [| reflexivity]. intros _ [| i] x y; discriminate.
  - injection Hlen as Hlen. cbn [std_equal].
    destruct (pred x y) eqn:Hxy.
    + destruct (IH r2 Hlen) as [b [Hb Hiff]].
      exists b. split; [exact Hb |].
      rewrite Hiff. split.
      * intros Hall [| i] x' y'; cbn.
        -- now intros [= <-] [= <-].
        -- apply Hall.
      * intros Hall i x' y'. apply (Hall (S i)).
    + exists false. split; [reflexivity |].
      split; [discriminate |].
      intros Hall.
      rewrite (Hall 0%nat x y eq_refl eq_refl) in Hxy. discriminate.
Qed.

Lemma std_equal_true_inv (x y : A) (r1 r2 : list A) :
  std_equal pred (x :: r1) (y :: r2) = Some true ->
  pred x y = true /\ std_equal pred r1 r2 = Some true.
Proof.
  cbn [std_equal]. destruct (pred x y); [auto | discriminate].
Qed.
End Vector.

Section VectorOps.
Context {T : Type} `{FloatingPoint T}.

Lemma equal_to_vf_length_differs (three_way : bool) (lhs rhs : list T) :
  List.length lhs <> List.length rhs ->
  equal_to_vf three_way lhs rhs = Some false.
Proof.
  intros Hlen. unfold equal_to_vf.
  now rewrite (proj2 (Nat.eqb_neq _ _) Hlen).
Qed.

Lemma equal_to_vf_same_length (three_way : bool) (lhs rhs : list T) :
  List.length lhs = List.length rhs ->
  equal_to_vf three_way lhs rhs = std_equal (equal_to_f three_way) lhs rhs.
Proof.
  intros Hlen. unfold equal_to_vf.
  now rewrite (proj2 (Nat.eqb_eq _ _) Hlen).
Qed.

(** [equal_to_vf] always returns: the length test shields [std::equal]. *)
Lemma equal_to_vf_returns (three_way : bool) (lhs rhs : list T) :
  exists b, equal_to_vf three_way lhs rhs = Some b.
Proof.
  destruct (Nat.eq_dec (List.length lhs) (List.length rhs)) as [Hlen | Hlen].
  - rewrite equal_to_vf_same_length by exact Hlen.
    destruct (std_equal_same_length (equal_to_f three_way) lhs rhs Hlen)
      as [b [Hb _]].
    now exists b.
  - exists false. now apply equal_to_vf_length_differs.
Qed.

Lemma equal_to_vf_true_length (three_way : bool) (lhs rhs : list T) :
  equal_to_vf three_way lhs rhs = Some true ->
  List.length lhs = List.length rhs.
Proof.
  unfold equal_to_vf.
  destruct (Nat.eqb_spec (List.length lhs) (List.length rhs));
    [auto | discriminate].
Qed.

Lemma hash_vf_snoc (hash_combine : Z -> T -> Z) (v : list T) (el : T) :
  hash_vf hash_combine (v ++ [el])
  = hash_combine (hash_vf hash_combine v) el.
Proof. unfold hash_vf. now rewrite fold_left_app. Qed.

Lemma fold_hash_combine_equal (three_way : bool)
  (hash_combine : Z -> T -> Z) :
  (forall seed a b,
      equal_to_f three_way a b = true ->
      hash_combine seed a = hash_combine seed b) ->
  forall v1 v2 seed,
    std_equal (equal_to_f three_way) v1 v2 = Some true ->
    List.length v1 = List.length v2 ->
    fold_left hash_combine v1 seed = fold_left hash_combine v2 seed.
Proof.
  intros Hcompat. induction v1 as [| a v1 IH]; intros [| b v2] seed Heq Hlen;
    try discriminate.
  - reflexivity.
  - apply std_equal_true_inv in Heq as [Hab Heq].
    injection Hlen as Hlen. cbn [fold_left].
    rewrite (Hcompat seed a b Hab). now apply IH.
Qed.
End VectorOps.

(** ** Lists in order *)

Section Ordered.
Context {A : Type}.

Lemma ordered_by_app (comp : A -> A -> bool) (l1 l2 : list A) :
  ordered_by comp (l1 ++ l2) <->
  ordered_by comp l1 /\ ordered_by comp l2 /\
  (forall x y, In x l1 -> In y l2 -> comp y x = false).
Proof.
  induction l1 as [| a l1 IH]; cbn [ordered_by app].
  - split; [intros Hord | intros [_ [Hord _]]; exact Hord].
    split; [exact I |]. split; [exact Hord |]. intros x y [].
  - rewrite IH. split.
    + intros [Ha [H1 [H2 H12]]]. repeat split; auto.
      * intros y Hy. apply Ha, in_or_app. now left.
      * intros x y [<- | Hx] Hy; [| now apply H12].
        apply Ha, in_or_app. now right.
    + intros [[Ha H1] [H2 H12]]. repeat split; auto.
      * intros y Hy. apply in_app_or in Hy as [Hy | Hy]; [now apply Ha |].
        apply H12; [now left | exact Hy].
      * intros x y Hx Hy. apply H12; [now right | exact Hy].
Qed.

Lemma ordered_by_rev (comp : A -> A -> bool) (l : list A) :
  ordered_by comp l <-> ordered_by (fun a b => comp b a) (rev l).
Proof.
  induction l as [| a l IH]; cbn [ordered_by rev]; [tauto |].
  rewrite ordered_by_app, <- IH. cbn [ordered_by In].
  split.
  - intros [Ha Hl]. split; [exact Hl |]. split.
    + split; [intros y [] | exact I].
    + intros x y Hx [<- | []]. apply Ha. now apply in_rev.
  - intros [Hl [_ Ha]]. split; [| exact Hl].
    intros y Hy. apply (Ha y a); [now rewrite <- in_rev | now left].
Qed.

Lemma ordered_by_ext (comp comp' : A -> A -> bool) (l : list A) :
  (forall a b, comp a b = comp' a b) ->
  ordered_by comp l <-> ordered_by comp' l.
Proof.
  intros Hext. induction l as [| a l IH]; cbn [ordered_by]; [tauto |].
  rewrite IH. split; intros [Ha Hl]; split; auto; intros y Hy.
  - rewrite <- Hext. now apply Ha.
  - rewrite Hext. now apply Ha.
Qed.
End Ordered.

(** ** Element hashes *)

Lemma order_key_hash_value_datum (x y : spec_float) :
  order_key true x = order_key true y ->
  hash_value_datum x = hash_value_datum y.
Proof.
  unfold hash_value_datum. cbn [ieee spec_float_FloatingPoint].
  destruct x as [[] | [] | | [] mx ex], y as [[] | [] | | [] my ey]; cbn;
    intros Hkey; try discriminate; try reflexivity;
    injection Hkey as He Hm;
    replace ey with ex by lia; replace my with mx by lia; reflexivity.
Qed.

Lemma hash_value_datum_respects_equal_to_f {T : Type} `{FloatingPoint T}
  (three_way : bool) (a b : T) :
  equal_to_f three_way a b = true -> hash_value_datum a = hash_value_datum b.
Proof.
  rewrite (equal_to_f_key three_way true). intros Heq.
  apply (order_key_hash_value_datum (ieee a) (ieee b)).
  apply lex_compare_eq. fold (key true a) (key true b).
  now destruct (lex_compare (key true a) (key true b)).
Qed.

(** ** Instantiation *)

Lemma instantiate_floating_point (op : operation) (three_way : bool)
  (t : scalar_type) :
  is_floating_point t = true -> instantiate op three_way t = well_formed.
Proof. destruct op, three_way, t; (reflexivity || discriminate). Qed.

(** Apart from [equal_to_f] under the three-way comparison, each operation
    rejects a scalar type that is not floating-point, naming itself. *)
Lemma instantiate_rejects (op : operation) (three_way : bool)
  (t : scalar_type) :
  is_floating_point t = false ->
  (op, three_way) <> (op_equal_to_f, true) ->
  rejected_naming op (instantiate op three_way t) = true.
Proof.
  destruct op, three_way, t; intros Hfp Hop;
    (reflexivity || discriminate || congruence).
Qed.

(** * The statements of the specification *)

Ltac unfold_operations :=
  unfold less_than_f, less_than_f_three_way, less_than_f_isnan,
    greater_than_f, greater_than_f_three_way, greater_than_f_isnan,
    equal_to_f, equal_to_f_three_way, equal_to_f_isnan,
    isnan, three_way_cmp, native_lt, native_gt, native_eq, SFltb, SFeqb in *.

Lemma less_than_f_one_nan {T : Type} `{FloatingPoint T}
  (three_way After : bool) (x n : T) :
  isnan x = false -> isnan n = true ->
  less_than_f three_way After x n = After /\
  less_than_f three_way After n x = negb After.
Proof.
  intros Hx Hn. unfold_operations.
  destruct (ieee n); try discriminate.
  destruct (ieee x) as [[] | [] | | [] ? ?]; try discriminate;
    destruct three_way, After; split; reflexivity.
Qed.

Lemma less_than_f_both_nan {T : Type} `{FloatingPoint T}
  (three_way After : bool) (n1 n2 : T) :
  isnan n1 = true -> isnan n2 = true ->
  less_than_f three_way After n1 n2 = false.
Proof.
  intros Hn1 Hn2. unfold_operations.
  destruct (ieee n1); try discriminate.
  destruct (ieee n2); try discriminate.
  destruct three_way, After; reflexivity.
Qed.

(** C2.  With one operand a NaN [n] and the other not, [less_than_f(x, n)]
    is [After] and [less_than_f(n, x)] is [!After]; with two NaN operands
    the result is [false]. *)
Theorem less_than_f_nan_placement {T : Type} `{FloatingPoint T}
  (three_way After : bool) :
  (forall x n : T,
      isnan x = false -> isnan n = true ->
      less_than_f three_way After x n = After /\
      less_than_f three_way After n x = negb After) /\
  (forall n1 n2 : T,
      isnan n1 = true -> isnan n2 = true ->
      less_than_f three_way After n1 n2 = false).
Proof.
  split.
  - apply less_than_f_one_nan.
  - apply less_than_f_both_nan.
Qed.

Lemma less_than_f_nan_placement_witness :
  (less_than_f true true DoubleValues.plus_inf DoubleValues.qnan = true /\
   less_than_f true true DoubleValues.qnan DoubleValues.plus_inf = false) /\
  (less_than_f false false DoubleValues.minus_inf DoubleValues.qnan = false /\
   less_than_f false false DoubleValues.qnan DoubleValues.minus_inf = true) /\
  less_than_f true true DoubleValues.qnan DoubleValues.qnan_negative = false.
Proof.
  split; [| split].
  - apply (proj1 (less_than_f_nan_placement true true)); reflexivity.
  - apply (proj1 (less_than_f_nan_placement false false)); reflexivity.
  - apply (proj2 (less_than_f_nan_placement true true)); reflexivity.
Defined.

Lemma equal_to_f_bool {T : Type} `{FloatingPoint T}
  (three_way : bool) (a b : T) :
  equal_to_f three_way a b = native_eq a b || (isnan a && isnan b).
Proof.
  unfold_operations.
  destruct three_way;
    destruct (SFcompare (ieee a) (ieee b)) as [[] |] eqn:Hcmp;
    destruct (ieee a) as [? | ? | | ? ? ?], (ieee b) as [? | ? | | ? ? ?];
    try reflexivity; try discriminate;
    repeat match goal with s : bool |- _ => destruct s end;
    discriminate.
Qed.

(** C3.  [equal_to_f(a, b)] is true exactly when [a == b] natively or both
    are NaN.  In particular any two NaNs are equal, a NaN equals no other
    value, and zeros of either sign are equal. *)
Theorem equal_to_f_native_or_both_nan {T : Type} `{FloatingPoint T}
  (three_way : bool) :
  (forall a b : T,
      equal_to_f three_way a b = true <->
      native_eq a b = true \/ (isnan a = true /\ isnan b = true)) /\
  (forall n1 n2 : T,
      isnan n1 = true -> isnan n2 = true ->
      equal_to_f three_way n1 n2 = true) /\
  (forall n x : T,
      isnan n = true -> isnan x = false ->
      equal_to_f three_way n x = false) /\
  (forall (z1 z2 : T) (s1 s2 : bool),
      ieee z1 = S754_zero s1 -> ieee z2 = S754_zero s2 ->
      equal_to_f three_way z1 z2 = true).
Proof.
  split; [| split; [| split]].
  - intros a b. rewrite equal_to_f_bool, orb_true_iff, andb_true_iff.
    reflexivity.
  - intros n1 n2 Hn1 Hn2. unfold_operations.
    destruct (ieee n1); try discriminate.
    destruct (ieee n2); try discriminate.
    destruct three_way; reflexivity.
  - intros n x Hn Hx. unfold_operations.
    destruct (ieee n); try discriminate.
    destruct (ieee x) as [[] | [] | | [] ? ?]; try discriminate;
      destruct three_way; reflexivity.
  - intros z1 z2 s1 s2 Hz1 Hz2. unfold_operations. rewrite Hz1, Hz2.
    destruct three_way; reflexivity.
Qed.

Lemma equal_to_f_native_or_both_nan_witness :
  equal_to_f true DoubleValues.qnan DoubleValues.qnan_payload = true /\
  equal_to_f true DoubleValues.qnan DoubleValues.one = false /\
  equal_to_f true DoubleValues.plus_zero DoubleValues.minus_zero = true.
Proof.
  destruct (equal_to_f_native_or_both_nan (T := double) true)
    as [_ [Hnan [Hmixed Hzero]]].
  split; [| split].
  - apply Hnan; reflexivity.
  - apply Hmixed; reflexivity.
  - apply (Hzero _ _ false true); reflexivity.
Defined.

(** C4.  [equal_to_vf] returns [false] whenever the lengths differ; on
    vectors of one length it returns [true] exactly when [equal_to_f] holds
    at every index, and [false] otherwise. *)
Theorem equal_to_vf_elementwise {T : Type} `{FloatingPoint T}
  (three_way : bool) (lhs rhs : list T) :
  (List.length lhs <> List.length rhs ->
   equal_to_vf three_way lhs rhs = Some false) /\
  (List.length lhs = List.length rhs ->
   exists b,
     equal_to_vf three_way lhs rhs = Some b /\
     (b = true <->
      forall i x y,
        nth_error lhs i = Some x -> nth_error rhs i = Some y ->
        equal_to_f three_way x y = true)).
Proof.
  split.
  - apply equal_to_vf_length_differs.
  - intros Hlen. rewrite (equal_to_vf_same_length three_way lhs rhs Hlen).
    now apply std_equal_same_length.
Qed.

Lemma equal_to_vf_elementwise_witness :
  equal_to_vf true [DoubleValues.one; DoubleValues.two]
    [DoubleValues.one; DoubleValues.two; DoubleValues.three] = Some false /\
  exists b,
    equal_to_vf true [DoubleValues.one; DoubleValues.two]
      [DoubleValues.two; DoubleValues.one] = Some b /\
    (b = true <->
     forall i x y,
       nth_error [DoubleValues.one; DoubleValues.two] i = Some x ->
       nth_error [DoubleValues.two; DoubleValues.one] i = Some y ->
       equal_to_f true x y = true).
Proof.
  split.
  - apply (proj1 (equal_to_vf_elementwise true
                    [DoubleValues.one; DoubleValues.two]
                    [DoubleValues.one; DoubleValues.two; DoubleValues.three])).
    cbn. lia.
  - apply (proj2 (equal_to_vf_elementwise true
                    [DoubleValues.one; DoubleValues.two]
                    [DoubleValues.two; DoubleValues.one])).
    reflexivity.
Defined.

(** C5.  For either placement of NaN and either body, [less_than_f] and
    [greater_than_f] are strict weak orderings of all values, NaN
    included: irreflexive, asymmetric, transitive, with a transitive
    neither-less-nor-greater relation. *)
Theorem less_greater_strict_weak_ordering {T : Type} `{FloatingPoint T}
  (three_way After : bool) :
  strict_weak_ordering (less_than_f (T := T) three_way After) /\
  strict_weak_ordering (greater_than_f (T := T) three_way After).
Proof.
  split.
  - apply less_than_f_strict_weak_ordering.
  - apply (strict_weak_ordering_ext
             (fun a b => less_than_f three_way After b a)).
    + apply greater_than_f_converse.
    + apply strict_weak_ordering_converse,
        less_than_f_strict_weak_ordering.
Qed.

(** C6.  On operands that are not NaN, [less_than_f] is the native [<] and
    [greater_than_f] the native [>], whatever [After] is. *)
Theorem less_greater_native_without_nan {T : Type} `{FloatingPoint T}
  (three_way After : bool) (a b : T) :
  isnan a = false -> isnan b = false ->
  less_than_f three_way After a b = native_lt a b /\
  greater_than_f three_way After a b = native_gt a b.
Proof.
  intros Ha Hb. unfold_operations.
  destruct (ieee a) as [? | ? | | ? ? ?]; try discriminate;
    destruct (ieee b) as [? | ? | | ? ? ?]; try discriminate;
    destruct three_way;
    split;
    match goal with
    | |- context [SFcompare ?x ?y] => destruct (SFcompare x y) as [[] |]
    end; reflexivity.
Qed.

Lemma less_greater_native_without_nan_witness :
  (isnan DoubleValues.minus_one = false /\ isnan DoubleValues.one = false) /\
  less_than_f true true DoubleValues.minus_one DoubleValues.one
  = native_lt DoubleValues.minus_one DoubleValues.one /\
  greater_than_f true true DoubleValues.minus_one DoubleValues.one
  = native_gt DoubleValues.minus_one DoubleValues.one.
Proof.
  split; [split; reflexivity |].
  apply (less_greater_native_without_nan true true
           DoubleValues.minus_one DoubleValues.one); reflexivity.
Defined.

(** C7.  [greater_than_f] is [less_than_f] with the operands exchanged: on
    operands that are not NaN, and on all others as well.  Under one
    [After] both put NaN at the same extreme ([After = true]: every value
    that is not NaN is less than NaN, and NaN is greater than it).  Hence a
    sequence is in order for [less_than_f] exactly when its reversal is in
    order for [greater_than_f]. *)
Theorem greater_than_f_mirrors_less_than_f {T : Type} `{FloatingPoint T}
  (three_way After : bool) :
  (forall a b : T,
      isnan a = false -> isnan b = false ->
      less_than_f three_way After a b = greater_than_f three_way After b a) /\
  (forall a b : T,
      less_than_f three_way After a b = greater_than_f three_way After b a) /\
  (forall x n : T,
      isnan x = false -> isnan n = true ->
      less_than_f three_way After x n = After /\
      greater_than_f three_way After n x = After /\
      less_than_f three_way After n x = negb After /\
      greater_than_f three_way After x n = negb After) /\
  (forall l : list T,
      ordered_by (less_than_f three_way After) l <->
      ordered_by (greater_than_f three_way After) (rev l)).
Proof.
  split; [| split; [| split]].
  - intros a b _ _. now rewrite greater_than_f_converse.
  - intros a b. now rewrite greater_than_f_converse.
  - intros x n Hx Hn. rewrite !greater_than_f_converse.
    destruct (less_than_f_one_nan three_way After x n Hx Hn) as [Hxn Hnx].
    now rewrite Hxn, Hnx.
  - intros l. rewrite ordered_by_rev.
    apply ordered_by_ext. intros a b.
    now rewrite greater_than_f_converse.
Qed.

Lemma greater_than_f_mirrors_less_than_f_witness :
  less_than_f true true DoubleValues.one DoubleValues.two
  = greater_than_f true true DoubleValues.two DoubleValues.one /\
  (less_than_f true true DoubleValues.plus_inf DoubleValues.qnan = true /\
   greater_than_f true true DoubleValues.qnan DoubleValues.plus_inf = true /\
   less_than_f true true DoubleValues.qnan DoubleValues.plus_inf = negb true /\
   greater_than_f true true DoubleValues.plus_inf DoubleValues.qnan
   = negb true).
Proof.
  destruct (greater_than_f_mirrors_less_than_f (T := double) true true)
    as [Hmirror [_ [Hnan _]]].
  split.
  - apply Hmirror; reflexivity.
  - apply Hnan; reflexivity.
Defined.

(** C8 fails for [equal_to_f] where the three-way comparison is available:
    its [static_assert] stands in the other branch of the [#if], so
    [equal_to_f<int>] is instantiated without a diagnostic, while the same
    instantiation is rejected by the other body and by the four other
    operations under either configuration. *)
Theorem equal_to_f_three_way_accepts_int :
  instantiate op_equal_to_f true ty_int = well_formed /\
  rejected_naming op_equal_to_f (instantiate op_equal_to_f false ty_int)
  = true /\
  forallb
    (fun op =>
       rejected_naming op (instantiate op true ty_int) &&
       rejected_naming op (instantiate op false ty_int))
    [op_less_than_f; op_greater_than_f; op_equal_to_vf; op_hash_vf]
  = true.
Proof. repeat split. Qed.

(** C9.  [hash_vf] of the empty vector is the seed [0], whatever the
    combine step is; and [hash_vf] is defined on every vector, a further
    element adding one combine step. *)
Theorem hash_vf_empty_is_seed {T : Type} `{FloatingPoint T}
  (hash_combine : Z -> T -> Z) :
  hash_vf hash_combine [] = 0 /\
  (forall (v : list T) (el : T),
      hash_vf hash_combine (v ++ [el])
      = hash_combine (hash_vf hash_combine v) el).
Proof.
  split; [reflexivity |]. apply hash_vf_snoc.
Qed.

(** C10.  [equal_to_f(a, b)] holds exactly when neither operand is less
    than the other for [less_than_f], under either placement of NaN and
    either body; and [equal_to_f] is reflexive, symmetric and transitive. *)
Theorem equal_to_f_is_order_equivalence {T : Type} `{FloatingPoint T}
  (three_way three_way' After : bool) :
  (forall a b : T,
      equal_to_f three_way a b
      = negb (less_than_f three_way' After a b)
        && negb (less_than_f three_way' After b a)) /\
  (forall a : T, equal_to_f three_way a a = true) /\
  (forall a b : T, equal_to_f three_way a b = equal_to_f three_way b a) /\
  (forall a b c : T,
      equal_to_f three_way a b = true -> equal_to_f three_way b c = true ->
      equal_to_f three_way a c = true).
Proof.
  split; [| split; [| split]].
  - intros a b.
    rewrite (equal_to_f_key three_way After), !less_than_f_key.
    rewrite (lex_compare_antisym (key After a) (key After b)).
    now destruct (lex_compare (key After a) (key After b)).
  - intros a. rewrite (equal_to_f_key three_way After).
    now rewrite (proj2 (lex_compare_eq _ _) eq_refl).
  - intros a b. rewrite !(equal_to_f_key three_way After).
    rewrite (lex_compare_antisym (key After a) (key After b)).
    now destruct (lex_compare (key After a) (key After b)).
  - intros a b c. rewrite !(equal_to_f_key three_way After).
    intros Hab Hbc.
    assert (Hkab : key After a = key After b).
    { apply lex_compare_eq.
      now destruct (lex_compare (key After a) (key After b)). }
    assert (Hkbc : key After b = key After c).
    { apply lex_compare_eq.
      now destruct (lex_compare (key After b) (key After c)). }
    rewrite Hkab, Hkbc.
    now rewrite (proj2 (lex_compare_eq _ _) eq_refl).
Qed.

Lemma equal_to_f_is_order_equivalence_witness :
  equal_to_f true DoubleValues.plus_zero DoubleValues.minus_zero = true /\
  equal_to_f true DoubleValues.minus_zero DoubleValues.plus_zero = true /\
  equal_to_f true DoubleValues.plus_zero DoubleValues.plus_zero = true.
Proof.
  destruct (equal_to_f_is_order_equivalence (T := double) true false true)
    as [_ [_ [_ Htrans]]].
  split; [reflexivity |]. split; [reflexivity |].
  apply (Htrans DoubleValues.plus_zero DoubleValues.minus_zero
           DoubleValues.plus_zero); reflexivity.
Defined.

(** * Further properties of the header *)

(** ** Shared lemmas *)

Lemma equal_to_f_true_key {T : Type} `{FloatingPoint T}
  (three_way After : bool) (a b : T) :
  equal_to_f three_way a b = true <-> key After a = key After b.
Proof.
  rewrite (equal_to_f_key three_way After), <- lex_compare_eq.
  destruct (lex_compare (key After a) (key After b)); cbn;
    intuition congruence.
Qed.

Lemma std_equal_ext {A : Type} (pred pred' : A -> A -> bool)
  (r1 r2 : list A) :
  (forall x y, pred x y = pred' x y) ->
  std_equal pred r1 r2 = std_equal pred' r1 r2.
Proof.
  intros Hext. revert r2.
  induction r1 as [| x r1 IH]; intros [| y r2]; cbn [std_equal];
    try reflexivity.
  rewrite Hext, IH. reflexivity.
Qed.

Lemma std_equal_true_Forall2 {A : Type} (pred : A -> A -> bool)
  (r1 r2 : list A) :
  List.length r1 = List.length r2 ->
  std_equal pred r1 r2 = Some true <->
  Forall2 (fun x y => pred x y = true) r1 r2.
Proof.
  revert r2. induction r1 as [| x r1 IH]; intros [| y r2] Hlen;
    try discriminate; cbn [std_equal].
  - split; [constructor | reflexivity].
  - injection Hlen as Hlen. specialize (IH r2 Hlen).
    destruct (pred x y) eqn:Hxy.
    + rewrite IH. split.
      * now constructor.
      * now inversion 1.
    + split; [discriminate |].
      inversion 1; subst. congruence.
Qed.

Lemma equal_to_vf_true_Forall2 {T : Type} `{FloatingPoint T}
  (three_way : bool) (lhs rhs : list T) :
  equal_to_vf three_way lhs rhs = Some true <->
  Forall2 (fun x y => equal_to_f three_way x y = true) lhs rhs.
Proof.
  split.
  - intros Heq.
    pose proof (equal_to_vf_true_length three_way lhs rhs Heq) as Hlen.
    rewrite (equal_to_vf_same_length three_way lhs rhs Hlen) in Heq.
    now apply std_equal_true_Forall2.
  - intros Hall.
    pose proof (Forall2_length Hall) as Hlen.
    rewrite (equal_to_vf_same_length three_way lhs rhs Hlen).
    now apply std_equal_true_Forall2.
Qed.


(** ** The two bodies *)

(** X1.  The body built on [<=>] and the body built on [std::isnan]
    compute the same results: for [less_than_f], [greater_than_f] and
    [equal_to_f] on all operands, hence for [equal_to_vf] on all vectors. *)
Theorem build_configurations_agree {T : Type} `{FloatingPoint T}
  (three_way three_way' After : bool) :
  (forall a b : T,
      less_than_f three_way After a b = less_than_f three_way' After a b) /\
  (forall a b : T,
      greater_than_f three_way After a b
      = greater_than_f three_way' After a b) /\
  (forall a b : T, equal_to_f three_way a b = equal_to_f three_way' a b) /\
  (forall lhs rhs : list T,
      equal_to_vf three_way lhs rhs = equal_to_vf three_way' lhs rhs).
Proof.
  assert (Heq : forall a b : T,
             equal_to_f three_way a b = equal_to_f three_way' a b).
  { intros a b. now rewrite !(equal_to_f_key _ true). }
  split; [| split; [| split]].
  - intros a b. now rewrite !less_than_f_key.
  - intros a b. now rewrite !greater_than_f_key.
  - exact Heq.
  - intros lhs rhs. unfold equal_to_vf.
    destruct (negb (List.length lhs =? List.length rhs)%nat);
      [reflexivity |].
    now apply std_equal_ext.
Qed.

(** ** The three scalar operations together *)

(** X2.  Of [less_than_f(a, b)], [equal_to_f(a, b)] and
    [greater_than_f(a, b)] exactly one is true, for all operands. *)
Theorem less_equal_greater_trichotomy {T : Type} `{FloatingPoint T}
  (three_way After : bool) (a b : T) :
  (less_than_f three_way After a b = true /\
   equal_to_f three_way a b = false /\
   greater_than_f three_way After a b = false) \/
  (less_than_f three_way After a b = false /\
   equal_to_f three_way a b = true /\
   greater_than_f three_way After a b = false) \/
  (less_than_f three_way After a b = false /\
   equal_to_f three_way a b = false /\
   greater_than_f three_way After a b = true).
Proof.
  rewrite less_than_f_key, greater_than_f_key,
    (equal_to_f_key three_way After).
  destruct (lex_compare (key After a) (key After b)); cbn; tauto.
Qed.

(** X3.  Operands that [equal_to_f] identifies are interchangeable in
    [less_than_f] and [greater_than_f]. *)
Theorem comparators_respect_equal_to_f {T : Type} `{FloatingPoint T}
  (three_way After : bool) (a a' b b' : T) :
  equal_to_f three_way a a' = true ->
  equal_to_f three_way b b' = true ->
  less_than_f three_way After a b = less_than_f three_way After a' b' /\
  greater_than_f three_way After a b = greater_than_f three_way After a' b'.
Proof.
  intros Ha Hb.
  apply (equal_to_f_true_key three_way After) in Ha, Hb.
  rewrite !less_than_f_key, !greater_than_f_key, Ha, Hb. now split.
Qed.

Lemma comparators_respect_equal_to_f_witness :
  less_than_f true true DoubleValues.plus_zero DoubleValues.qnan
  = less_than_f true true DoubleValues.minus_zero DoubleValues.qnan_payload /\
  greater_than_f true true DoubleValues.plus_zero DoubleValues.qnan
  = greater_than_f true true DoubleValues.minus_zero
      DoubleValues.qnan_payload.
Proof.
  apply (comparators_respect_equal_to_f true true
           DoubleValues.plus_zero DoubleValues.minus_zero
           DoubleValues.qnan DoubleValues.qnan_payload); reflexivity.
Defined.

(** X4.  The placement flag matters only when exactly one operand is NaN:
    otherwise both placements give the same result, and with exactly one
    NaN they give opposite results. *)
Theorem After_matters_with_one_nan_only {T : Type} `{FloatingPoint T}
  (three_way After : bool) (a b : T) :
  (isnan a = isnan b ->
   less_than_f three_way (negb After) a b = less_than_f three_way After a b /\
   greater_than_f three_way (negb After) a b
   = greater_than_f three_way After a b) /\
  (isnan a <> isnan b ->
   less_than_f three_way (negb After) a b
   = negb (less_than_f three_way After a b) /\
   greater_than_f three_way (negb After) a b
   = negb (greater_than_f three_way After a b)).
Proof.
  unfold_operations.
  destruct (ieee a) as [? | ? | | ? ? ?], (ieee b) as [? | ? | | ? ? ?];
    (split; intros Hnan; try discriminate; try congruence);
    destruct three_way, After; split; reflexivity.
Qed.

Lemma After_matters_with_one_nan_only_witness :
  (less_than_f true (negb true) DoubleValues.one DoubleValues.two
   = less_than_f true true DoubleValues.one DoubleValues.two /\
   greater_than_f true (negb true) DoubleValues.one DoubleValues.two
   = greater_than_f true true DoubleValues.one DoubleValues.two) /\
  (less_than_f true (negb true) DoubleValues.one DoubleValues.qnan
   = negb (less_than_f true true DoubleValues.one DoubleValues.qnan) /\
   greater_than_f true (negb true) DoubleValues.one DoubleValues.qnan
   = negb (greater_than_f true true DoubleValues.one DoubleValues.qnan)).
Proof.
  split.
  - apply (proj1 (After_matters_with_one_nan_only true true
                    DoubleValues.one DoubleValues.two)).
    reflexivity.
  - apply (proj2 (After_matters_with_one_nan_only true true
                    DoubleValues.one DoubleValues.qnan)).
    discriminate.
Defined.

(** ** Vectors *)

(** X5.  [equal_to_vf] is an equivalence relation on vectors, NaN elements
    included: reflexive, symmetric and transitive. *)
Theorem equal_to_vf_equivalence {T : Type} `{FloatingPoint T}
  (three_way : bool) :
  (forall v : list T, equal_to_vf three_way v v = Some true) /\
  (forall v w : list T,
      equal_to_vf three_way v w = equal_to_vf three_way w v) /\
  (forall u v w : list T,
      equal_to_vf three_way u v = Some true ->
      equal_to_vf three_way v w = Some true ->
      equal_to_vf three_way u w = Some true).
Proof.
  assert (Hsym : forall v w : list T,
             equal_to_vf three_way v w = Some true ->
             equal_to_vf three_way w v = Some true).
  { intros v w. rewrite !equal_to_vf_true_Forall2.
    induction 1 as [| x y v w Hxy _ IH]; constructor; [| exact IH].
    apply (equal_to_f_true_key three_way true). symmetry.
    now apply (equal_to_f_true_key three_way true). }
  split; [| split].
  - intros v. apply equal_to_vf_true_Forall2.
    induction v as [| x v IH]; constructor; [| exact IH].
    now apply (equal_to_f_true_key three_way true).
  - intros v w.
    destruct (equal_to_vf_returns three_way v w) as [[] Hvw];
      destruct (equal_to_vf_returns three_way w v) as [[] Hwv];
      rewrite Hvw, Hwv; try reflexivity.
    + apply Hsym in Hvw. congruence.
    + apply Hsym in Hwv. congruence.
  - intros u v w. rewrite !equal_to_vf_true_Forall2.
    intros Huv. revert w.
    induction Huv as [| x y u v Hxy _ IH]; intros w Hvw;
      inversion Hvw as [| y' z v' w' Hyz Hvw']; subst; constructor.
    + apply (equal_to_f_true_key three_way true).
      transitivity (key true y);
        now apply (equal_to_f_true_key three_way true).
    + now apply IH.
Qed.

Lemma equal_to_vf_equivalence_witness :
  equal_to_vf true [DoubleValues.plus_zero; DoubleValues.qnan]
    [DoubleValues.plus_zero; DoubleValues.qnan_negative] = Some true.
Proof.
  destruct (equal_to_vf_equivalence (T := double) true) as [_ [_ Htrans]].
  apply (Htrans _ [DoubleValues.minus_zero; DoubleValues.qnan_payload]);
    reflexivity.
Defined.



(** X7.  [equal_to_vf] goes through concatenation: when the front parts
    have one length, two concatenations are equal exactly when the front
    parts are and the back parts are. *)
Theorem equal_to_vf_app {T : Type} `{FloatingPoint T}
  (three_way : bool) (l1 l2 r1 r2 : list T) :
  List.length l1 = List.length r1 ->
  equal_to_vf three_way (l1 ++ l2) (r1 ++ r2) = Some true <->
  equal_to_vf three_way l1 r1 = Some true /\
  equal_to_vf three_way l2 r2 = Some true.
Proof.
  rewrite !equal_to_vf_true_Forall2. revert r1.
  induction l1 as [| x l1 IH]; intros [| y r1] Hlen; try discriminate;
    cbn [app].
  - split; [intros Hall; split; [constructor | exact Hall] | tauto].
  - injection Hlen as Hlen. specialize (IH r1 Hlen). split.
    + inversion 1; subst. split; [constructor |]; tauto.
    + intros [H1 H2]. inversion H1; subst. constructor; tauto.
Qed.

Lemma equal_to_vf_app_witness :
  equal_to_vf true
    ([DoubleValues.one] ++ [DoubleValues.qnan])
    ([DoubleValues.one] ++ [DoubleValues.qnan_payload]) = Some true <->
  equal_to_vf true [DoubleValues.one] [DoubleValues.one] = Some true /\
  equal_to_vf true [DoubleValues.qnan] [DoubleValues.qnan_payload]
  = Some true.
Proof.
  apply (equal_to_vf_app true [DoubleValues.one] [DoubleValues.qnan]
           [DoubleValues.one] [DoubleValues.qnan_payload]).
  reflexivity.
Defined.

(** ** Sequences in order *)

(** X8.  In a sequence in order for [less_than_f<T, After>] the NaNs stand
    together at the end [After] names: after a NaN come only NaNs when
    [After] is true, and after a value that is not NaN come no NaNs when
    [After] is false.  For [greater_than_f<T, After>] the ends are
    exchanged. *)
Theorem ordered_sequences_gather_nan {T : Type} `{FloatingPoint T}
  (three_way After : bool) (l1 l2 : list T) (a : T) :
  (ordered_by (less_than_f three_way After) (l1 ++ a :: l2) ->
   isnan a = After ->
   forall y, In y l2 -> isnan y = After) /\
  (ordered_by (greater_than_f three_way After) (l1 ++ a :: l2) ->
   isnan a = negb After ->
   forall y, In y l2 -> isnan y = negb After).
Proof.
  split; intros Hord Ha y Hy;
    apply ordered_by_app in Hord as [_ [[Hafter _] _]];
    specialize (Hafter y Hy).
  - destruct After, (isnan y) eqn:Hnan; try reflexivity.
    + destruct (less_than_f_one_nan three_way true y a Hnan Ha)
        as [Hya _].
      congruence.
    + destruct (less_than_f_one_nan three_way false a y Ha Hnan)
        as [_ Hya].
      cbn [negb] in Hya. congruence.
  - rewrite greater_than_f_converse in Hafter.
    destruct After, (isnan y) eqn:Hnan; try reflexivity; cbn [negb] in Ha.
    + destruct (less_than_f_one_nan three_way true a y Ha Hnan)
        as [Hay _].
      congruence.
    + destruct (less_than_f_one_nan three_way false y a Hnan Ha)
        as [_ Hay].
      cbn [negb] in Hay. congruence.
Qed.

Lemma ordered_sequences_gather_nan_witness :
  ordered_by (less_than_f true true)
    ([DoubleValues.minus_one; DoubleValues.plus_inf]
     ++ DoubleValues.qnan :: [DoubleValues.qnan_payload]) /\
  isnan DoubleValues.qnan_payload = true.
Proof.
  assert (Hord : ordered_by (less_than_f true true)
                   ([DoubleValues.minus_one; DoubleValues.plus_inf]
                    ++ DoubleValues.qnan :: [DoubleValues.qnan_payload])).
  { cbn. repeat split; intros y Hy;
      repeat (destruct Hy as [<- | Hy]; [reflexivity |]); destruct Hy. }
  split; [exact Hord |].
  apply (proj1 (ordered_sequences_gather_nan true true
                  [DoubleValues.minus_one; DoubleValues.plus_inf]
                  [DoubleValues.qnan_payload] DoubleValues.qnan)
           Hord eq_refl).
  now left.
Defined.

(** X9.  [+inf] and [-inf] stand next to NaN: with [After = true] the
    values greater than [+inf] are exactly the NaNs, and with
    [After = false] the values less than [-inf] are exactly the NaNs. *)
Theorem nan_beyond_infinity {T : Type} `{FloatingPoint T}
  (three_way : bool) (inf x : T) :
  (ieee inf = S754_infinity false ->
   less_than_f three_way true inf x = isnan x /\
   greater_than_f three_way true x inf = isnan x) /\
  (ieee inf = S754_infinity true ->
   less_than_f three_way false x inf = isnan x /\
   greater_than_f three_way false inf x = isnan x).
Proof.
  split; intros Hinf; rewrite greater_than_f_converse;
    unfold_operations; rewrite Hinf;
    destruct (ieee x) as [[] | [] | | [] ? ?], three_way; split; reflexivity.
Qed.

Lemma nan_beyond_infinity_witness :
  (less_than_f true true DoubleValues.plus_inf DoubleValues.qnan
   = isnan DoubleValues.qnan /\
   greater_than_f true true DoubleValues.qnan DoubleValues.plus_inf
   = isnan DoubleValues.qnan) /\
  (less_than_f true false DoubleValues.three DoubleValues.minus_inf
   = isnan DoubleValues.three /\
   greater_than_f true false DoubleValues.minus_inf DoubleValues.three
   = isnan DoubleValues.three).
Proof.
  split.
  - apply (proj1 (nan_beyond_infinity true DoubleValues.plus_inf
                    DoubleValues.qnan)).
    reflexivity.
  - apply (proj2 (nan_beyond_infinity true DoubleValues.minus_inf
                    DoubleValues.three)).
    reflexivity.
Defined.

(** ** Hashing and equality *)

Lemma hash_vf_prefixes {T : Type} `{FloatingPoint T}
  (three_way : bool) (hash_combine : Z -> T -> Z) :
  (forall (v : list T) (a b : T),
      equal_to_f three_way a b = true ->
      hash_combine (hash_vf hash_combine v) a
      = hash_combine (hash_vf hash_combine v) b) ->
  forall v1 v2 : list T,
    Forall2 (fun x y => equal_to_f three_way x y = true) v1 v2 ->
    forall p1 p2 : list T,
      hash_vf hash_combine p1 = hash_vf hash_combine p2 ->
      hash_vf hash_combine (p1 ++ v1) = hash_vf hash_combine (p2 ++ v2).
Proof.
  intros Hstep v1 v2 Hall.
  induction Hall as [| x y v1 v2 Hxy _ IH]; intros p1 p2 Hp.
  - now rewrite !app_nil_r.
  - change (x :: v1) with ([x] ++ v1). change (y :: v2) with ([y] ++ v2).
    rewrite !app_assoc. apply IH.
    rewrite !hash_vf_snoc, <- Hp. now apply Hstep.
Qed.

(** X11.  [hash_vf] keeps the contract between hash and equality exactly
    when its combine step does: vectors equal for [equal_to_vf] have equal
    hashes, for all vectors, if and only if at every seed [hash_vf] can
    reach the combine step gives one result for any two elements that
    [equal_to_f] identifies.  [hash_vf] itself treats no element
    specially, NaN included. *)
Theorem hash_vf_consistent_iff_combine_consistent
  {T : Type} `{FloatingPoint T}
  (three_way : bool) (hash_combine : Z -> T -> Z) :
  (forall v1 v2 : list T,
      equal_to_vf three_way v1 v2 = Some true ->
      hash_vf hash_combine v1 = hash_vf hash_combine v2) <->
  (forall (v : list T) (a b : T),
      equal_to_f three_way a b = true ->
      hash_combine (hash_vf hash_combine v) a
      = hash_combine (hash_vf hash_combine v) b).
Proof.
  split.
  - intros Hvec v a b Hab. rewrite <- !hash_vf_snoc. apply Hvec.
    apply equal_to_vf_true_Forall2, Forall2_app.
    + induction v as [| x v IH]; constructor; [| exact IH].
      now apply (equal_to_f_true_key three_way true).
    + now repeat constructor.
  - intros Hstep v1 v2 Heq.
    apply equal_to_vf_true_Forall2 in Heq.
    now apply (hash_vf_prefixes three_way hash_combine Hstep v1 v2 Heq [] []).
Qed.

Lemma hash_vf_consistent_iff_combine_consistent_witness :
  hash_vf datum_combine [DoubleValues.plus_zero; DoubleValues.qnan]
  = hash_vf datum_combine [DoubleValues.minus_zero; DoubleValues.qnan_payload].
Proof.
  apply (proj2 (hash_vf_consistent_iff_combine_consistent true
                  (datum_combine (T := double)))).
  - intros v a b Hab. unfold datum_combine.
    now rewrite (hash_value_datum_respects_equal_to_f true a b Hab).
  - reflexivity.
Defined.

(** ** Instantiation *)

(** X10.  Which instantiations the [static_assert]s let through: those at
    a floating-point type, and [equal_to_f] at any arithmetic type where
    the three-way comparison is available.  Every other instantiation is
    rejected with a diagnostic that names the operation. *)
Theorem instantiate_well_formed_iff (op : operation) (three_way : bool)
  (t : scalar_type) :
  (instantiate op three_way t = well_formed <->
   is_floating_point t = true \/ (op = op_equal_to_f /\ three_way = true)) /\
  (instantiate op three_way t = well_formed \/
   rejected_naming op (instantiate op three_way t) = true).
Proof.
  split; [split |].
  - intros Hwf. destruct (is_floating_point t) eqn:Hfp; [now left |].
    right. destruct op, three_way; try (split; reflexivity);
      exfalso; destruct t; cbn in *; discriminate.
  - intros [Hfp | [-> ->]];
      [now apply instantiate_floating_point | reflexivity].
  - destruct (is_floating_point t) eqn:Hfp.
    + left. now apply instantiate_floating_point.
    + destruct op, three_way; try (left; reflexivity);
        right; destruct t; cbn in *; (reflexivity || discriminate).
Qed.

Lemma instantiate_well_formed_iff_witness :
  instantiate op_equal_to_f true ty_int = well_formed /\
  instantiate op_less_than_f true ty_double = well_formed.
Proof.
  split.
  - apply (proj1 (instantiate_well_formed_iff op_equal_to_f true ty_int)).
    right. split; reflexivity.
  - apply (proj1 (instantiate_well_formed_iff op_less_than_f true ty_double)).
    left. reflexivity.
Defined.
